(** * PocketUniverse: the injected provider proxy and the simulation store

    A shallow embedding of
    - [src/src/lib/storage.ts]: the persisted sequence of stored simulations,
      its transitions and the settings document;
    - the injected script (the proxy handler of [window.ethereum] and the
      [Object.defineProperty] binding of that property).

    JavaScript values are modelled by [JSVal]; a thrown exception or a
    rejected promise by [Exn]. [chrome.storage.sync] is a [World] record
    whose reads and writes are total. *)

From Stdlib Require Import String Bool List ZArith Lia DecimalString.
Set Warnings "-register-all".
Import ListNotations.
Open Scope string_scope.

(* ------------------------------------------------------------------ *)
(** ** JavaScript values and outcomes *)

Inductive JSVal : Type :=
| JUndef
| JNull
| JBool (b : bool)
| JNum (z : Z)
| JStr (s : string)
| JArr (l : list JSVal)
| JObj (fields : list (string * JSVal)).

(** Thrown values: a [TypeError] raised by the engine, a provider error
    built by [ethErrors.provider.*] (an EIP-1193 code and a message), an
    [Error] built with [new Error(msg)], or any value thrown by a callee. *)
Inductive JSErr : Type :=
| TypeError
| ProviderError (code : Z) (message : string)
| PlainError (message : string)
| Thrown (v : JSVal).

Inductive res (A : Type) : Type :=
| Ok (a : A)
| Exn (e : JSErr).
Arguments Ok {A} a.
Arguments Exn {A} e.

Fixpoint assoc_get (k : string) (fs : list (string * JSVal)) : JSVal :=
  match fs with
  | [] => JUndef
  | (k', v) :: fs' => if String.eqb k k' then v else assoc_get k fs'
  end.

(** Property read [v.k] / [v[k]]: reading a property of [undefined] or
    [null] throws a [TypeError]; a missing property reads as [undefined]. *)
Definition get_prop (v : JSVal) (k : string) : res JSVal :=
  match v with
  | JUndef | JNull => Exn TypeError
  | JObj fs => Ok (assoc_get k fs)
  | JArr l => if String.eqb k "length" then Ok (JNum (Z.of_nat (List.length l)))
              else Ok JUndef
  | JStr s => if String.eqb k "length" then Ok (JNum (Z.of_nat (String.length s)))
              else Ok JUndef
  | JBool _ | JNum _ => Ok JUndef
  end.

(** Index read [v[n]]. *)
Definition get_index (v : JSVal) (n : nat) : res JSVal :=
  match v with
  | JUndef | JNull => Exn TypeError
  | JArr l => Ok (nth n l JUndef)
  | JObj fs => Ok (assoc_get (DecimalString.NilZero.string_of_uint (Nat.to_uint n)) fs)
  | JStr s => match String.get n s with
              | Some c => Ok (JStr (String c EmptyString))
              | None => Ok JUndef
              end
  | JBool _ | JNum _ => Ok JUndef
  end.

(** Strict equality of a value with a string / number literal. *)
Definition is_str (v : JSVal) (s : string) : bool :=
  match v with JStr t => String.eqb t s | _ => false end.

Definition is_num (v : JSVal) (z : Z) : bool :=
  match v with JNum w => Z.eqb w z | _ => false end.

(** JavaScript truthiness ([NaN] is not among the modelled numbers). *)
Definition truthy (v : JSVal) : bool :=
  match v with
  | JUndef | JNull => false
  | JBool b => b
  | JNum z => negb (Z.eqb z 0)
  | JStr s => negb (String.eqb s "")
  | JArr _ | JObj _ => true
  end.

(* ------------------------------------------------------------------ *)
(** ** storage.ts: the stored simulations *)

Module Storage.

(** [StoredSimulationState]; the string values of the enum. *)
Inductive StoredSimulationState : Type :=
| Simulating | Revert | Error | Success | Rejected | Confirmed.

Definition state_eqb (a b : StoredSimulationState) : bool :=
  match a, b with
  | Simulating, Simulating | Revert, Revert | Error, Error
  | Success, Success | Rejected, Rejected | Confirmed, Confirmed => true
  | _, _ => false
  end.

Inductive StoredType : Type := SimulationType | SignatureType.

(** The backend's simulation payload is opaque to this code. *)
Inductive Simulation : Type := mkSimulation (payload : JSVal).

(** [StoredSimulation]; an absent optional field is [None]. *)
Record StoredSimulation : Type := mkStored {
  id : string;
  type : StoredType;
  state : StoredSimulationState;
  simulation : option Simulation;
  error : option string
}.

(** [Settings]. *)
Record Settings : Type := mkSettings { disable : bool }.

(** [chrome.storage.sync] under the keys [simulations] and [settings], and
    the icon last set by [chrome.action.setIcon]. *)
Record World : Type := mkWorld {
  w_simulations : option (list StoredSimulation);
  w_settings : option Settings;
  w_icon : option string
}.

(** [const { simulations = [] } = await chrome.storage.sync.get(STORAGE_KEY)] *)
Definition read_simulations (w : World) : list StoredSimulation :=
  match w_simulations w with Some l => l | None => [] end.

(** [chrome.storage.sync.set({ simulations })] *)
Definition write_simulations (l : list StoredSimulation) (w : World) : World :=
  mkWorld (Some l) (w_settings w) (w_icon w).

(** [addSimulation]: push a copy at the end. *)
Definition addSimulation (s : StoredSimulation) (w : World) : World :=
  write_simulations (app (read_simulations w) [s]) w.

(** [completeSimulation]: the [forEach] mutates each entry whose id
    matches (the entries are fresh copies read from storage). *)
Definition completeSimulation (i : string) (sim : Simulation) (w : World) : World :=
  write_simulations
    (map (fun x => if String.eqb (id x) i
                   then mkStored (id x) (type x) Success (Some sim) (error x)
                   else x) (read_simulations w)) w.

(** [revertSimulation] *)
Definition revertSimulation (i : string) (err : option string) (w : World) : World :=
  write_simulations
    (map (fun x => if String.eqb (id x) i
                   then mkStored (id x) (type x) Revert (simulation x) err
                   else x) (read_simulations w)) w.

(** [removeSimulation] *)
Definition removeSimulation (i : string) (w : World) : World :=
  write_simulations
    (filter (fun x => negb (String.eqb (id x) i)) (read_simulations w)) w.

(** [updateSimulationState]: [{ ...x, state }] on the matching entries. *)
Definition updateSimulationState (i : string) (st : StoredSimulationState) (w : World)
  : World :=
  write_simulations
    (map (fun x => if String.eqb (id x) i
                   then mkStored (id x) (type x) st (simulation x) (error x)
                   else x) (read_simulations w)) w.

(** [updateSimulatioWithErrorMsg]: [{ ...x, error, state: Error }]. *)
Definition updateSimulatioWithErrorMsg (i : string) (err : option string) (w : World)
  : World :=
  write_simulations
    (map (fun x => if String.eqb (id x) i
                   then mkStored (id x) (type x) Error (simulation x) err
                   else x) (read_simulations w)) w.

(** [clearOldSimulations] *)
Definition clearOldSimulations (w : World) : World :=
  write_simulations
    (filter (fun x => negb (state_eqb (state x) Rejected)
                      && negb (state_eqb (state x) Confirmed))
            (read_simulations w)) w.

(** [simulationNeedsAction] *)
Definition simulationNeedsAction (st : StoredSimulationState) : bool :=
  state_eqb st Success || state_eqb st Error
  || state_eqb st Simulating || state_eqb st Revert.

End Storage.

(* ------------------------------------------------------------------ *)
(** ** storage.ts: dispatch of a simulation and the settings *)

Module Dispatch.
Import Storage.

(** [ResponseType] and [Response] of [lib/models]: the backend's answer. *)
Inductive ResponseType : Type := RTSuccess | RTRevert | RTError.

Record Response : Type := mkResponse {
  rtype : ResponseType;
  rsimulation : option Simulation;
  rerror : option string
}.

(** [RequestArgs]: the variant carrying a [transaction] field, or the
    signature variant. *)
Inductive RequestArgs : Type :=
| TxArgs (rid : string) (chainId : JSVal) (transaction : JSVal)
| SigArgs (rid : string) (chainId : JSVal) (domain message primaryType : JSVal).

Definition args_id (a : RequestArgs) : string :=
  match a with TxArgs i _ _ => i | SigArgs i _ _ _ _ => i end.

(** The server calls [fetchSimulate] and [fetchSignature] (from [./server]):
    each settles with a [Response] or rejects. *)
Record Server : Type := mkServer {
  fetchSimulate : RequestArgs -> res Response;
  fetchSignature : RequestArgs -> res Response
}.

(** The server call [fetchSimulationAndUpdate] makes for [args] (the
    [fetchSimulate] branch when ['transaction' in args]), and the entry its
    [addSimulation] adds. *)
Definition server_call (srv : Server) (args : RequestArgs) : res Response :=
  match args with
  | TxArgs _ _ _ => fetchSimulate srv args
  | SigArgs _ _ _ _ _ => fetchSignature srv args
  end.

Definition initial_entry (args : RequestArgs) : StoredSimulation :=
  match args with
  | TxArgs i _ _ => mkStored i SimulationType Simulating None None
  | SigArgs i _ _ _ _ => mkStored i SignatureType Simulating None None
  end.

(** [!response.simulation] is false: the field is present and truthy. *)
Definition sim_truthy (o : option Simulation) : bool :=
  match o with Some (mkSimulation v) => truthy v | None => false end.

(** The [chrome.storage.sync] calls that may reject: one awaited by
    [addSimulation], one awaited by the terminal write. A rejected call
    writes nothing. *)
Record StorageFaults : Type := mkFaults {
  add_fault : option JSErr;
  update_fault : option JSErr
}.

(** When both promises given to [Promise.all] reject, the first to settle
    gives the rejection. *)
Inductive Settle : Type := AddSettlesFirst | FetchSettlesFirst.

Definition promise_all2 {A B} (o : Settle) (ra : res A) (rb : res B) : res (A * B) :=
  match ra, rb with
  | Ok a, Ok b => Ok (a, b)
  | Exn e, Ok _ => Exn e
  | Ok _, Exn e => Exn e
  | Exn ea, Exn eb => match o with AddSettlesFirst => Exn ea | FetchSettlesFirst => Exn eb end
  end.

(** [fetchSimulationAndUpdate] with the given storage faults. The world
    returned is the storage once every started call has landed: the write
    of [addSimulation] lands even when [Promise.all] has already rejected
    because the server call did. Nothing is caught. *)
Definition fetchSimulationAndUpdateIO (f : StorageFaults) (o : Settle) (srv : Server)
    (args : RequestArgs) (w : World) : World * res unit :=
  let '(w1, added) :=
    match add_fault f with
    | None => (addSimulation (initial_entry args) w, Ok tt)
    | Some e => (w, Exn e)
    end in
  let terminal (w2 : World) :=
    match update_fault f with None => (w2, Ok tt) | Some e => (w1, Exn e) end in
  match promise_all2 o added (server_call srv args) with
  | Exn e => (w1, Exn e)
  | Ok (_, r) =>
      match rtype r with
      | RTError => terminal (updateSimulatioWithErrorMsg (args_id args) (rerror r) w1)
      | RTRevert => terminal (revertSimulation (args_id args) (rerror r) w1)
      | RTSuccess =>
          if negb (sim_truthy (rsimulation r)) then (w1, Exn (PlainError "Invalid state"))
          else match rsimulation r with
               | Some sim => terminal (completeSimulation (args_id args) sim w1)
               | None => (w1, Exn (PlainError "Invalid state"))
               end
      end
  end.

(** [fetchSimulationAndUpdate] when every storage call succeeds (the order
    in which the two promises settle then makes no difference). *)
Definition fetchSimulationAndUpdate (srv : Server) (args : RequestArgs) (w : World)
  : World * res unit :=
  fetchSimulationAndUpdateIO (mkFaults None None) FetchSettlesFirst srv args w.

(** The state a response of each type is recorded with. *)
Definition recorded_state (t : ResponseType) : StoredSimulationState :=
  match t with RTSuccess => Success | RTRevert => Revert | RTError => Error end.

(** [updateIcon] *)
Definition updateIcon (s : Settings) (w : World) : World :=
  mkWorld (w_simulations w) (w_settings w)
          (Some (if disable s then "icon-32-gray.png" else "icon-32.png")).

(** [setSettings]: default [{ disable: false }], overwrite the flag,
    update the icon, write back. *)
Definition setSettings (args : Settings) (w : World) : World :=
  let settings := match w_settings w with Some s => s | None => mkSettings false end in
  let settings := mkSettings (disable args) in
  let w := updateIcon settings w in
  mkWorld (w_simulations w) (Some settings) (w_icon w).

(** [getSettings] *)
Definition getSettings (w : World) : Settings :=
  match w_settings w with Some s => s | None => mkSettings false end.

End Dispatch.

(* ------------------------------------------------------------------ *)
(** ** The injected script: proxy handler *)

Module Injected.

(** [Response] of [lib/request]: the request manager's decision. *)
Inductive Decision : Type := Continue | Reject | DError.

(** The object sent through [REQUEST_MANAGER.request]. *)
Inductive SimRequest : Type :=
| TxRequest (chainId transaction : JSVal)
| SigRequest (chainId domain message primaryType : JSVal).

(** What a wrapped call does, in order: forward to the original method,
    ask the target for [eth_chainId], send a request to the manager (the
    only path by which a stored simulation gets created). *)
Inductive Event : Type :=
| EvForward (args : list JSVal)
| EvChainId
| EvDispatch (r : SimRequest).

(** The collaborators of one call: the captured [originalCall], the answer
    of [target.request({ method: 'eth_chainId' })], [REQUEST_MANAGER.request]
    and [JSON.parse]. *)
Record Env : Type := mkEnv {
  originalCall : list JSVal -> res JSVal;
  chainIdAnswer : res JSVal;
  managerRequest : SimRequest -> res Decision;
  jsonParse : JSVal -> res JSVal
}.

(** A writer of events with exceptions: the async wrapper's run, its
    promise settling with [Ok] or rejecting with [Exn]. *)
Definition M (A : Type) : Type := list Event * res A.

Definition ret {A} (a : A) : M A := ([], Ok a).
Definition throw {A} (e : JSErr) : M A := ([], Exn e).
Definition lift {A} (r : res A) : M A := ([], r).
Definition bind {A B} (m : M A) (f : A -> M B) : M B :=
  match m with
  | (t, Ok a) => let '(t', r) := f a in (app t t', r)
  | (t, Exn e) => (t, Exn e)
  end.

Notation "x <- c ;; k" := (bind c (fun x => k))
  (at level 61, c at next level, right associativity).

Definition forward (env : Env) (args : list JSVal) : M JSVal :=
  ([EvForward args], originalCall env args).

Definition queryChainId (env : Env) : M JSVal := ([EvChainId], chainIdAnswer env).

Definition dispatch (env : Env) (r : SimRequest) : M Decision :=
  ([EvDispatch r], managerRequest env r).

Definition txRejectMsg : string :=
  "PocketUniverse Tx Signature: User denied transaction signature.".
Definition msgRejectMsg : string :=
  "PocketUniverse Message Signature: User denied message signature.".

(** [ethErrors.provider.userRejectedRequest(msg)] (EIP-1193 code 4001). *)
Definition userRejectedRequest (msg : string) : JSErr := ProviderError 4001 msg.

(** [if (response === Continue || response === Error) return originalCall(...args)];
    otherwise the function body ends and resolves to [undefined]. *)
Definition afterDecision (env : Env) (args : list JSVal) (d : Decision) : M JSVal :=
  match d with
  | Continue | DError => forward env args
  | Reject => ret JUndef
  end.

(** The async wrapper returned for [request], [send] and [sendAsync]. *)
Definition wrapper (env : Env) (args : list JSVal) : M JSVal :=
  let requestArg := nth 0 args JUndef in
  m <- lift (get_prop requestArg "method") ;;
  if negb (is_str m "eth_signTypedData_v3") && negb (is_str m "eth_signTypedData_v4")
     && negb (is_str m "eth_sendTransaction")
  then forward env args
  else if is_str m "eth_sendTransaction" then
    params <- lift (get_prop requestArg "params") ;;
    len <- lift (get_prop params "length") ;;
    if negb (is_num len 1) then forward env args
    else
      cid <- queryChainId env ;;
      p0 <- lift (get_index params 0) ;;
      response <- dispatch env (TxRequest cid p0) ;;
      match response with
      | Reject => throw (userRejectedRequest txRejectMsg)
      | _ => afterDecision env args response
      end
  else if is_str m "eth_signTypedData_v3" || is_str m "eth_signTypedData_v4" then
    params <- lift (get_prop requestArg "params") ;;
    len <- lift (get_prop params "length") ;;
    if negb (is_num len 2) then forward env args
    else
      p1 <- lift (get_index params 1) ;;
      parsed <- lift (jsonParse env p1) ;;
      cid <- queryChainId env ;;
      domain <- lift (get_prop parsed "domain") ;;
      message <- lift (get_prop parsed "message") ;;
      primaryType <- lift (get_prop parsed "primaryType") ;;
      response <- dispatch env (SigRequest cid domain message primaryType) ;;
      match response with
      | Reject => throw (userRejectedRequest msgRejectMsg)
      | _ => afterDecision env args response
      end
  else throw (PlainError "Show never reach here").

(** What [pocketUniverseProxyHandler.get] returns for a property. *)
Inductive Member : Type := Reflected | Wrapped.

Definition handlerGet (disable : bool) (prop : string) : Member :=
  if disable then Reflected
  else if negb (String.eqb prop "request") && negb (String.eqb prop "send")
          && negb (String.eqb prop "sendAsync")
  then Reflected
  else Wrapped.

(** Calling [proxy[prop](...args)]: a reflected member is the target's own
    method, called directly; a wrapped one runs [wrapper]. *)
Definition proxyCall (disable : bool) (prop : string) (env : Env) (args : list JSVal)
  : M JSVal :=
  match handlerGet disable prop with
  | Reflected => forward env args
  | Wrapped => wrapper env args
  end.

Definition no_dispatch (t : list Event) : Prop :=
  forall r, ~ In (EvDispatch r) t.

Definition no_forward (t : list Event) : Prop :=
  forall a, ~ In (EvForward a) t.

End Injected.

(* ------------------------------------------------------------------ *)
(** ** The injected script: the [window.ethereum] binding *)

Module Binding.

(** A [Proxy] object: a fresh reference and its target. *)
Record ProxyRef : Type := mkProxy { proxy_ref : nat; proxy_target : JSVal }.

(** The module state [currentProvider], [cachedProxy], [providerChanged],
    and the next fresh object reference. *)
Record Binding : Type := mkBinding {
  currentProvider : JSVal;
  cachedProxy : option ProxyRef;
  providerChanged : bool;
  next_ref : nat
}.

(** [let currentProvider = window.ethereum; let providerChanged = true;] *)
Definition init (window_ethereum : JSVal) : Binding :=
  mkBinding window_ethereum None true 0.

(** [new Proxy(target, handler)] throws a [TypeError] when the target is not
    an object. *)
Definition is_object (v : JSVal) : bool :=
  match v with JArr _ | JObj _ => true | _ => false end.

(** The getter of [window.ethereum]. *)
Definition get (b : Binding) : Binding * res (option ProxyRef) :=
  if providerChanged b then
    if is_object (currentProvider b) then
      let p := mkProxy (next_ref b) (currentProvider b) in
      (mkBinding (currentProvider b) (Some p) false (S (next_ref b)), Ok (Some p))
    else (b, Exn TypeError)
  else (b, Ok (cachedProxy b)).

(** The setter of [window.ethereum]. *)
Definition set (b : Binding) (newProvider : JSVal) : Binding :=
  mkBinding newProvider (cachedProxy b) true (next_ref b).

(** A page's reads and writes of [window.ethereum]. *)
Inductive Op : Type := OGet | OSet (v : JSVal).

(** Run the reads and writes in order; also collect, in order, the proxies
    the reads return. *)
Fixpoint run (b : Binding) (ops : list Op) : Binding * list ProxyRef :=
  match ops with
  | [] => (b, [])
  | OGet :: ops' =>
      let '(b1, r) := get b in
      let '(b2, seen) := run b1 ops' in
      (b2, match r with Ok (Some p) => p :: seen | _ => seen end)
  | OSet v :: ops' => run (set b v) ops'
  end.

(** The states the binding reaches from the script's start through reads
    and writes of [window.ethereum]. *)
Inductive reachable : Binding -> Prop :=
| reach_init v : reachable (init v)
| reach_set b v : reachable b -> reachable (set b v)
| reach_get b : reachable b -> reachable (fst (get b)).

End Binding.

(* ------------------------------------------------------------------ *)
(** ** The three terminal writes of a dispatch, as one type *)

Module Terminal.
Import Storage.

(** [completeSimulation], [revertSimulation], [updateSimulatioWithErrorMsg]
    with their payload. *)
Inductive TerminalWrite : Type :=
| TComplete (sim : Simulation)
| TRevert (err : option string)
| TError (err : option string).

Definition apply_write (i : string) (t : TerminalWrite) (w : World) : World :=
  match t with
  | TComplete sim => completeSimulation i sim w
  | TRevert err => revertSimulation i err w
  | TError err => updateSimulatioWithErrorMsg i err w
  end.

Definition written_state (t : TerminalWrite) : StoredSimulationState :=
  match t with TComplete _ => Success | TRevert _ => Revert | TError _ => Error end.

(** The field a write sets holds the write's payload. *)
Definition payload_written (t : TerminalWrite) (x : StoredSimulation) : Prop :=
  match t with
  | TComplete sim => simulation x = Some sim
  | TRevert err | TError err => error x = err
  end.

End Terminal.

(* ------------------------------------------------------------------ *)
(** ** Concrete inputs *)

Module Fixtures.
Import Storage Dispatch Injected.

Definition w_empty : World := mkWorld None None None.
Definition sim_a : Simulation := mkSimulation (JStr "a").
Definition entry_a : StoredSimulation := mkStored "a" SimulationType Simulating None None.
Definition w_a : World := addSimulation entry_a w_empty.
Definition entry_b : StoredSimulation :=
  mkStored "b" SignatureType Revert None (Some "execution reverted").
Definition w_b : World := addSimulation entry_b w_empty.

(** A server whose every answer is a [Success] without a simulation. *)
Definition srv_no_sim : Server :=
  mkServer (fun _ => Ok (mkResponse RTSuccess None None))
           (fun _ => Ok (mkResponse RTSuccess None None)).

(** An environment in which the manager vetoes every request. *)
Definition env_reject : Env :=
  mkEnv (fun _ => Ok (JStr "0xhash")) (Ok (JStr "0x1")) (fun _ => Ok Reject)
        (fun v => Ok v).

Definition tx_call (params : list JSVal) : list JSVal :=
  [JObj [("method", JStr "eth_sendTransaction"); ("params", JArr params)]].

Definition sig_call (params : list JSVal) : list JSVal :=
  [JObj [("method", JStr "eth_signTypedData_v4"); ("params", JArr params)]].

End Fixtures.

(* ================================================================== *)
(** * Properties *)

Module StorageFacts.
Import Storage Dispatch Terminal Fixtures.

Lemma read_write (l : list StoredSimulation) (w : World) :
  read_simulations (write_simulations l w) = l.
Proof. reflexivity. Qed.

Example add_then_complete :
  read_simulations (completeSimulation "a" sim_a w_a)
  = [mkStored "a" SimulationType Success (Some sim_a) None].
Proof. reflexivity. Qed.

(** Reading the [n]-th entry after mapping the matching entries. *)
Lemma nth_error_map_match (f : StoredSimulation -> StoredSimulation) i l n x :
  nth_error l n = Some x ->
  nth_error (map (fun y => if String.eqb (id y) i then f y else y) l) n
  = Some (if String.eqb (id x) i then f x else x).
Proof. intros H. rewrite nth_error_map, H. reflexivity. Qed.

Lemma map_match_none (f : StoredSimulation -> StoredSimulation) i l :
  (forall x, In x l -> id x <> i) ->
  map (fun y => if String.eqb (id y) i then f y else y) l = l.
Proof.
  induction l as [|y l IH]; intros Hn; simpl; [reflexivity|].
  rewrite IH by (intros; apply Hn; right; assumption).
  destruct (String.eqb_spec (id y) i) as [E|E]; [|reflexivity].
  exfalso. apply (Hn y); [left; reflexivity | exact E].
Qed.

Lemma map_match_idem (f : StoredSimulation -> StoredSimulation) i l :
  (forall y, id (f y) = id y) -> (forall y, f (f y) = f y) ->
  map (fun y => if String.eqb (id y) i then f y else y)
      (map (fun y => if String.eqb (id y) i then f y else y) l)
  = map (fun y => if String.eqb (id y) i then f y else y) l.
Proof.
  intros Hid Hf. rewrite map_map. apply map_ext. intros y.
  destruct (String.eqb (id y) i) eqn:E.
  - rewrite Hid, E. apply Hf.
  - rewrite E. reflexivity.
Qed.

Lemma In_map_match (f : StoredSimulation -> StoredSimulation) i l x :
  In x (map (fun y => if String.eqb (id y) i then f y else y) l) ->
  (forall y, id (f y) = id y) -> id x = i ->
  exists y, In y l /\ id y = i /\ x = f y.
Proof.
  intros Hin Hid Hx. apply in_map_iff in Hin as [y [Hy Hiny]].
  destruct (String.eqb_spec (id y) i) as [E|E].
  - exists y. auto.
  - subst x. contradiction.
Qed.


(** Each terminal write is an update of the matching entries. *)
Lemma apply_write_map i t w :
  read_simulations (apply_write i t w)
  = map (fun y => if String.eqb (id y) i
                  then match t with
                       | TComplete sim => mkStored (id y) (type y) Success (Some sim) (error y)
                       | TRevert err => mkStored (id y) (type y) Revert (simulation y) err
                       | TError err => mkStored (id y) (type y) Error (simulation y) err
                       end
                  else y) (read_simulations w).
Proof. destruct t; reflexivity. Qed.

Lemma apply_write_other_keys i t w :
  w_settings (apply_write i t w) = w_settings w /\ w_icon (apply_write i t w) = w_icon w.
Proof. destruct t; split; reflexivity. Qed.

Lemma apply_write_matching i t w x :
  In x (read_simulations (apply_write i t w)) -> id x = i ->
  state x = written_state t /\ payload_written t x.
Proof.
  intros Hin Hx. rewrite apply_write_map in Hin.
  apply In_map_match in Hin as [y [_ [_ ->]]]; [| destruct t; reflexivity | exact Hx].
  destruct t; simpl; auto.
Qed.

Lemma apply_write_shape i t w :
  apply_write i t w
  = mkWorld (Some (read_simulations (apply_write i t w))) (w_settings w) (w_icon w).
Proof. destruct t; reflexivity. Qed.

(** C7: the terminal writes are idempotent per id, the later of two writes
    on one id leaves its state and payload on every entry with that id,
    and a write for an id that no entry has leaves the sequence as it was. *)
Theorem terminal_writes_idempotent_lww :
  (forall i t w, apply_write i t (apply_write i t w) = apply_write i t w) /\
  (forall i t1 t2 w x,
     In x (read_simulations (apply_write i t2 (apply_write i t1 w))) -> id x = i ->
     state x = written_state t2 /\ payload_written t2 x) /\
  (forall i t w,
     (forall x, In x (read_simulations w) -> id x <> i) ->
     read_simulations (apply_write i t w) = read_simulations w).
Proof.
  split; [|split].
  - intros i t w.
    assert (Hr : read_simulations (apply_write i t (apply_write i t w))
                 = read_simulations (apply_write i t w)).
    { rewrite !apply_write_map. apply map_match_idem.
      - destruct t; reflexivity.
      - destruct t; reflexivity. }
    rewrite (apply_write_shape i t (apply_write i t w)), Hr.
    destruct (apply_write_other_keys i t w) as [-> ->].
    symmetry. apply apply_write_shape.
  - intros i t1 t2 w x Hin Hx. exact (apply_write_matching i t2 _ x Hin Hx).
  - intros i t w Hn. rewrite apply_write_map. apply map_match_none. exact Hn.
Qed.

(** C9: [updateSimulationState] keeps the length and order of the sequence,
    every field but [state] of the matching entries, every other entry,
    and the other storage keys. *)
Theorem updateSimulationState_frame (i : string) (st : StoredSimulationState) (w : World) :
  length (read_simulations (updateSimulationState i st w)) = length (read_simulations w) /\
  (forall n x, nth_error (read_simulations w) n = Some x ->
     exists y, nth_error (read_simulations (updateSimulationState i st w)) n = Some y /\
       id y = id x /\ type y = type x /\ simulation y = simulation x /\
       error y = error x /\
       (if String.eqb (id x) i then state y = st else y = x)) /\
  w_settings (updateSimulationState i st w) = w_settings w /\
  w_icon (updateSimulationState i st w) = w_icon w.
Proof.
  split; [apply length_map|split; [|split; reflexivity]].
  intros n x Hx. unfold updateSimulationState. rewrite read_write.
  erewrite nth_error_map_match by exact Hx.
  eexists; split; [reflexivity|].
  destruct (String.eqb (id x) i); simpl; repeat split; reflexivity.
Qed.

(** C3, refuted: a completed entry that the user then confirms keeps its
    simulation while its state is [Confirmed]. *)
Lemma stored_payload_not_determined_by_state :
  ~ (forall x,
       In x (read_simulations
               (updateSimulationState "a" Confirmed (completeSimulation "a" sim_a w_a))) ->
       simulation x <> None -> state x = Success).
Proof.
  intros H. specialize (H (mkStored "a" SimulationType Confirmed (Some sim_a) None)).
  simpl in H. discriminate H; [left; reflexivity | discriminate].
Qed.


(** C3, as the code has it: each terminal write sets its own payload
    together with its state and keeps the other payload field, and
    [updateSimulationState] keeps both payload fields, so which payload is
    present is not a function of the state. *)
Theorem stored_payload_fields i (w : World) n x :
  nth_error (read_simulations w) n = Some x -> id x = i ->
  (forall sim, exists y,
     nth_error (read_simulations (completeSimulation i sim w)) n = Some y /\
     state y = Success /\ simulation y = Some sim /\ error y = error x) /\
  (forall err, exists y,
     nth_error (read_simulations (revertSimulation i err w)) n = Some y /\
     state y = Revert /\ error y = err /\ simulation y = simulation x) /\
  (forall err, exists y,
     nth_error (read_simulations (updateSimulatioWithErrorMsg i err w)) n = Some y /\
     state y = Error /\ error y = err /\ simulation y = simulation x) /\
  (forall st, exists y,
     nth_error (read_simulations (updateSimulationState i st w)) n = Some y /\
     state y = st /\ simulation y = simulation x /\ error y = error x).
Proof.
  intros Hn Hx.
  assert (E : String.eqb (id x) i = true) by (apply String.eqb_eq; exact Hx).
  repeat split; intros p; eexists;
    (split; [unfold completeSimulation, revertSimulation, updateSimulatioWithErrorMsg,
                    updateSimulationState; rewrite read_write;
             erewrite nth_error_map_match by exact Hn; rewrite E; reflexivity|]);
    simpl; repeat split; reflexivity.
Qed.

Theorem stored_payload_fields_witness :
  nth_error (read_simulations w_a) 0 = Some entry_a /\ id entry_a = "a" /\
  exists y, nth_error (read_simulations (completeSimulation "a" sim_a w_a)) 0 = Some y /\
    state y = Success /\ simulation y = Some sim_a /\ error y = error entry_a.
Proof.
  split; [reflexivity|split; [reflexivity|]].
  exact (proj1 (stored_payload_fields "a" w_a 0 entry_a eq_refl eq_refl) sim_a).
Defined.

Ltac split6 := split; [|split; [|split; [|split; [|split]]]].

(** With every storage call succeeding, the writes of
    [fetchSimulationAndUpdate] are terminal writes after the added entry. *)
Lemma fetch_as_write srv args w :
  fetchSimulationAndUpdate srv args w
  = let w1 := addSimulation (initial_entry args) w in
    match server_call srv args with
    | Exn e => (w1, Exn e)
    | Ok r =>
        match rtype r with
        | RTError => (apply_write (args_id args) (TError (rerror r)) w1, Ok tt)
        | RTRevert => (apply_write (args_id args) (TRevert (rerror r)) w1, Ok tt)
        | RTSuccess =>
            match rsimulation r with
            | Some sim =>
                if sim_truthy (Some sim)
                then (apply_write (args_id args) (TComplete sim) w1, Ok tt)
                else (w1, Exn (PlainError "Invalid state"))
            | None => (w1, Exn (PlainError "Invalid state"))
            end
        end
    end.
Proof.
  unfold fetchSimulationAndUpdate, fetchSimulationAndUpdateIO. cbn [add_fault update_fault].
  destruct (server_call srv args) as [r|e]; [|reflexivity]. cbn.
  destruct (rtype r); [|reflexivity|reflexivity].
  destruct (rsimulation r) as [[v]|]; [|reflexivity].
  cbn. destruct (truthy v); reflexivity.
Qed.

(** C2, refuted: a [Success] answer without a simulation makes
    [fetchSimulationAndUpdate] throw [Error('Invalid state')]. *)
Lemma fetchSimulationAndUpdate_throws_invalid_state :
  fetchSimulationAndUpdate srv_no_sim (TxArgs "a" (JStr "0x1") JUndef) w_empty
  = (w_a, Exn (PlainError "Invalid state")).
Proof. reflexivity. Qed.

(** C2, as the code has it: [fetchSimulationAndUpdate] catches nothing
    and returns no decision. It rejects when the server call rejects, when
    a storage call it awaits rejects, or when a [Success] answer has a
    falsy simulation; otherwise it resolves after recording the answer's
    state and payload on every entry with the request's id. *)
Theorem fetchSimulationAndUpdate_outcomes (f : StorageFaults) (o : Settle) (srv : Server)
    (args : RequestArgs) (w : World) :
  let out := fetchSimulationAndUpdateIO f o srv args w in
  (forall e, snd out = Exn e ->
     server_call srv args = Exn e \/ add_fault f = Some e \/ update_fault f = Some e \/
     exists r, server_call srv args = Ok r /\ rtype r = RTSuccess /\
               sim_truthy (rsimulation r) = false /\ e = PlainError "Invalid state") /\
  (forall e, server_call srv args = Exn e -> exists e', snd out = Exn e') /\
  (forall e, add_fault f = Some e -> exists e', snd out = Exn e') /\
  (forall r, add_fault f = None -> server_call srv args = Ok r ->
     rtype r = RTSuccess -> sim_truthy (rsimulation r) = false ->
     snd out = Exn (PlainError "Invalid state")) /\
  (forall r e, add_fault f = None -> server_call srv args = Ok r ->
     (rtype r <> RTSuccess \/ sim_truthy (rsimulation r) = true) ->
     update_fault f = Some e -> snd out = Exn e) /\
  (forall r, add_fault f = None -> update_fault f = None -> server_call srv args = Ok r ->
     (rtype r <> RTSuccess \/ sim_truthy (rsimulation r) = true) ->
     snd out = Ok tt /\
     forall x, In x (read_simulations (fst out)) -> id x = args_id args ->
       state x = recorded_state (rtype r) /\
       match rtype r with
       | RTSuccess => simulation x = rsimulation r
       | _ => error x = rerror r
       end).
Proof.
  cbv zeta. unfold fetchSimulationAndUpdateIO.
  destruct f as [af uf]; cbn [add_fault update_fault].
  destruct af as [ea|]; destruct (server_call srv args) as [r|es] eqn:Hs.
  (* the add rejects, the server answers *)
  - cbn. split6.
    + intros e He. injection He as <-. auto.
    + intros e He. discriminate He.
    + intros e _. eexists; reflexivity.
    + intros r' Hf. discriminate Hf.
    + intros r' e Hf. discriminate Hf.
    + intros r' Hf. discriminate Hf.
  (* both reject *)
  - cbn. split6.
    + intros e He. destruct o; injection He as <-; auto.
    + intros e _. destruct o; eexists; reflexivity.
    + intros e _. destruct o; eexists; reflexivity.
    + intros r' Hf. discriminate Hf.
    + intros r' e Hf. discriminate Hf.
    + intros r' Hf. discriminate Hf.
  (* the add lands, the server answers *)
  - assert (Hr : forall r', Ok r = Ok r' -> r' = r) by (intros r' H; injection H; auto).
    assert (Hw : forall t x,
               In x (read_simulations (apply_write (args_id args) t
                                         (addSimulation (initial_entry args) w))) ->
               id x = args_id args -> state x = written_state t /\ payload_written t x)
      by (intros t x Hin Hx; exact (apply_write_matching _ t _ x Hin Hx)).
    cbn [promise_all2].
    destruct (rtype r) eqn:Ht.
    + destruct (sim_truthy (rsimulation r)) eqn:Htr; cbn [negb].
      * destruct (rsimulation r) as [sim|] eqn:Hsim; [|discriminate Htr].
        destruct uf as [eu|]; cbn [fst snd].
        -- split6.
           ++ intros e He. injection He as <-. auto.
           ++ intros e He. discriminate He.
           ++ intros e He. discriminate He.
           ++ intros r' _ Hr'%Hr; subst r'. congruence.
           ++ intros r' e _ _ _ He. injection He as <-. reflexivity.
           ++ intros r' _ Hu. discriminate Hu.
        -- split6.
           ++ intros e He. discriminate He.
           ++ intros e He. discriminate He.
           ++ intros e He. discriminate He.
           ++ intros r' _ Hr'%Hr; subst r'. congruence.
           ++ intros r' e _ _ _ He. discriminate He.
           ++ intros r' _ _ Hr'%Hr _; subst r'. split; [reflexivity|].
              intros x Hin Hx. destruct (Hw (TComplete sim) x Hin Hx) as [H1 H2].
              rewrite Ht, Hsim. simpl in H1, H2 |- *. auto.
      * cbn [fst snd]. split6.
        -- intros e He. injection He as <-. right; right; right. exists r. auto.
        -- intros e He. discriminate He.
        -- intros e He. discriminate He.
        -- intros r' _ Hr'%Hr; subst r'. reflexivity.
        -- intros r' e _ Hr'%Hr [H|H]; subst r'; congruence.
        -- intros r' _ _ Hr'%Hr [H|H]; subst r'; congruence.
    + destruct uf as [eu|]; cbn [fst snd].
      * split6.
        -- intros e He. injection He as <-. auto.
        -- intros e He. discriminate He.
        -- intros e He. discriminate He.
        -- intros r' _ Hr'%Hr; subst r'. congruence.
        -- intros r' e _ _ _ He. injection He as <-. reflexivity.
        -- intros r' _ Hu. discriminate Hu.
      * split6.
        -- intros e He. discriminate He.
        -- intros e He. discriminate He.
        -- intros e He. discriminate He.
        -- intros r' _ Hr'%Hr; subst r'. congruence.
        -- intros r' e _ _ _ He. discriminate He.
        -- intros r' _ _ Hr'%Hr _; subst r'. split; [reflexivity|].
           intros x Hin Hx. destruct (Hw (TRevert (rerror r)) x Hin Hx) as [H1 H2].
           rewrite Ht. simpl in H1, H2 |- *. auto.
    + destruct uf as [eu|]; cbn [fst snd].
      * split6.
        -- intros e He. injection He as <-. auto.
        -- intros e He. discriminate He.
        -- intros e He. discriminate He.
        -- intros r' _ Hr'%Hr; subst r'. congruence.
        -- intros r' e _ _ _ He. injection He as <-. reflexivity.
        -- intros r' _ Hu. discriminate Hu.
      * split6.
        -- intros e He. discriminate He.
        -- intros e He. discriminate He.
        -- intros e He. discriminate He.
        -- intros r' _ Hr'%Hr; subst r'. congruence.
        -- intros r' e _ _ _ He. discriminate He.
        -- intros r' _ _ Hr'%Hr _; subst r'. split; [reflexivity|].
           intros x Hin Hx. destruct (Hw (TError (rerror r)) x Hin Hx) as [H1 H2].
           rewrite Ht. simpl in H1, H2 |- *. auto.
  (* the add lands, the server rejects *)
  - cbn. split6.
    + intros e He. injection He as <-. auto.
    + intros e _. eexists; reflexivity.
    + intros e He. discriminate He.
    + intros r' _ Hf. discriminate Hf.
    + intros r' e _ Hf. discriminate Hf.
    + intros r' _ _ Hf. discriminate Hf.
Qed.

(** C10: with no settings document, [getSettings] answers
    [{ disable: false }] and [setSettings] stores the given flag. *)
Theorem settings_default_enabled (w : World) :
  w_settings w = None ->
  getSettings w = mkSettings false /\
  forall args, getSettings (setSettings args w) = mkSettings (disable args).
Proof. intros H. unfold getSettings. rewrite H. split; reflexivity. Qed.

Theorem settings_default_enabled_witness :
  w_settings w_empty = None /\
  getSettings w_empty = mkSettings false /\
  getSettings (setSettings (mkSettings true) w_empty) = mkSettings true.
Proof.
  split; [reflexivity|].
  destruct (settings_default_enabled w_empty eq_refl) as [H1 H2].
  split; [exact H1 | exact (H2 (mkSettings true))].
Defined.

End StorageFacts.

Module ProxyFacts.
Import Injected Fixtures.

Example tx_one_param_rejected :
  wrapper env_reject (tx_call [JObj []])
  = ([EvChainId; EvDispatch (TxRequest (JStr "0x1") (JObj []))],
     Exn (ProviderError 4001 "PocketUniverse Tx Signature: User denied transaction signature.")).
Proof. reflexivity. Qed.

(** C1: an intercepted [eth_sendTransaction] with one parameter that the
    request manager answers with [Reject] rejects with the EIP-1193
    user-rejected error and the fixed message, and the original method is
    never called. *)
Theorem intercepted_tx_reject (disable : bool) (prop : string) (env : Env)
    (args : list JSVal) (ps p0 cid : JSVal) :
  handlerGet disable prop = Wrapped ->
  get_prop (nth 0 args JUndef) "method" = Ok (JStr "eth_sendTransaction") ->
  get_prop (nth 0 args JUndef) "params" = Ok ps ->
  get_prop ps "length" = Ok (JNum 1) ->
  get_index ps 0 = Ok p0 ->
  chainIdAnswer env = Ok cid ->
  managerRequest env (TxRequest cid p0) = Ok Reject ->
  proxyCall disable prop env args
  = ([EvChainId; EvDispatch (TxRequest cid p0)],
     Exn (ProviderError 4001 "PocketUniverse Tx Signature: User denied transaction signature."))
  /\ no_forward (fst (proxyCall disable prop env args)).
Proof.
  intros Hw Hm Hp Hl H0 Hc Hr.
  assert (E : proxyCall disable prop env args
              = ([EvChainId; EvDispatch (TxRequest cid p0)],
                 Exn (ProviderError 4001
                        "PocketUniverse Tx Signature: User denied transaction signature."))).
  { unfold proxyCall. rewrite Hw. unfold wrapper.
    rewrite Hm. cbn [bind lift is_str String.eqb negb andb].
    rewrite Hp. simpl. rewrite Hl. simpl.
    unfold queryChainId. rewrite Hc. simpl. rewrite H0. simpl.
    unfold dispatch. rewrite Hr. reflexivity. }
  split; [exact E|].
  rewrite E. intros a [H|[H|H]]; discriminate H || contradiction.
Qed.

Theorem intercepted_tx_reject_witness :
  proxyCall false "request" env_reject (tx_call [JObj []])
  = ([EvChainId; EvDispatch (TxRequest (JStr "0x1") (JObj []))],
     Exn (ProviderError 4001 "PocketUniverse Tx Signature: User denied transaction signature."))
  /\ no_forward (fst (proxyCall false "request" env_reject (tx_call [JObj []]))).
Proof.
  apply (intercepted_tx_reject false "request" env_reject (tx_call [JObj []])
           (JArr [JObj []]) (JObj []) (JStr "0x1")); reflexivity.
Defined.

(** C5: a call whose request method is none of the three intercepted ones
    is forwarded with the same arguments, its result is the original
    method's, and nothing is sent to the request manager. *)
Theorem non_reserved_method_forwarded (disable : bool) (prop : string) (env : Env)
    (args : list JSVal) (m : JSVal) :
  get_prop (nth 0 args JUndef) "method" = Ok m ->
  is_str m "eth_signTypedData_v3" = false ->
  is_str m "eth_signTypedData_v4" = false ->
  is_str m "eth_sendTransaction" = false ->
  proxyCall disable prop env args = ([EvForward args], originalCall env args)
  /\ no_dispatch (fst (proxyCall disable prop env args)).
Proof.
  intros Hm H3 H4 Ht.
  assert (E : proxyCall disable prop env args = ([EvForward args], originalCall env args)).
  { unfold proxyCall. destruct (handlerGet disable prop); [reflexivity|].
    unfold wrapper. rewrite Hm. simpl. rewrite H3, H4, Ht. reflexivity. }
  split; [exact E|]. rewrite E. intros r [H|H]; [discriminate H | contradiction].
Qed.

Theorem non_reserved_method_forwarded_witness :
  proxyCall false "request" env_reject [JObj [("method", JStr "eth_accounts")]]
  = ([EvForward [JObj [("method", JStr "eth_accounts")]]], Ok (JStr "0xhash"))
  /\ no_dispatch (fst (proxyCall false "request" env_reject
                         [JObj [("method", JStr "eth_accounts")]])).
Proof.
  apply (non_reserved_method_forwarded false "request" env_reject
           [JObj [("method", JStr "eth_accounts")]] (JStr "eth_accounts"));
    reflexivity.
Defined.

(** C6: an intercepted method called with a parameter list of the wrong
    length is forwarded unchanged and nothing is sent to the manager. *)
Theorem arg_count_mismatch_forwarded (disable : bool) (prop : string) (env : Env)
    (args : list JSVal) (ps : list JSVal) :
  (get_prop (nth 0 args JUndef) "method" = Ok (JStr "eth_sendTransaction") /\
   get_prop (nth 0 args JUndef) "params" = Ok (JArr ps) /\ length ps <> 1)
  \/
  ((get_prop (nth 0 args JUndef) "method" = Ok (JStr "eth_signTypedData_v3") \/
    get_prop (nth 0 args JUndef) "method" = Ok (JStr "eth_signTypedData_v4")) /\
   get_prop (nth 0 args JUndef) "params" = Ok (JArr ps) /\ length ps <> 2) ->
  proxyCall disable prop env args = ([EvForward args], originalCall env args)
  /\ no_dispatch (fst (proxyCall disable prop env args)).
Proof.
  intros H.
  assert (E : proxyCall disable prop env args = ([EvForward args], originalCall env args)).
  { unfold proxyCall. destruct (handlerGet disable prop); [reflexivity|].
    unfold wrapper.
    destruct H as [[Hm [Hp Hl]] | [[Hm|Hm] [Hp Hl]]]; rewrite Hm; simpl; rewrite Hp; simpl.
    - destruct (Z.eqb (Z.of_nat (length ps)) 1) eqn:Ez; [lia|reflexivity].
    - destruct (Z.eqb (Z.of_nat (length ps)) 2) eqn:Ez; [lia|reflexivity].
    - destruct (Z.eqb (Z.of_nat (length ps)) 2) eqn:Ez; [lia|reflexivity]. }
  split; [exact E|]. rewrite E. intros r [Hr|Hr]; [discriminate Hr | contradiction].
Qed.

Theorem arg_count_mismatch_forwarded_witness :
  proxyCall false "request" env_reject (tx_call [])
  = ([EvForward (tx_call [])], Ok (JStr "0xhash"))
  /\ no_dispatch (fst (proxyCall false "request" env_reject (tx_call []))).
Proof.
  apply (arg_count_mismatch_forwarded false "request" env_reject (tx_call []) []).
  left. split; [reflexivity | split; [reflexivity | simpl; lia]].
Defined.

(** C8: the wrapper reads [args[0].method] before anything else; with no
    argument (or an [undefined] or [null] first argument) it rejects with a
    [TypeError] and does not forward the call. *)
Theorem missing_request_arg_type_error (disable : bool) (prop : string) (env : Env)
    (args : list JSVal) :
  handlerGet disable prop = Wrapped ->
  nth 0 args JUndef = JUndef \/ nth 0 args JUndef = JNull ->
  proxyCall disable prop env args = ([], Exn TypeError).
Proof.
  intros Hw Ha. unfold proxyCall. rewrite Hw. unfold wrapper.
  destruct Ha as [Ha|Ha]; rewrite Ha; reflexivity.
Qed.

Theorem missing_request_arg_type_error_witness :
  proxyCall false "request" env_reject [] = ([], Exn TypeError).
Proof.
  apply (missing_request_arg_type_error false "request" env_reject []);
    [reflexivity | left; reflexivity].
Defined.

End ProxyFacts.

Module BindingFacts.
Import Binding.

(** For an object provider the getter caches: without a [set] it returns
    the cached proxy, and after [set(p)] it builds one proxy of [p] with a
    fresh reference and returns that proxy until the next [set]. *)
Lemma get_unchanged_returns_cache (b : Binding) :
  providerChanged b = false -> get b = (b, Ok (cachedProxy b)).
Proof. intros H. unfold get. rewrite H. reflexivity. Qed.

Lemma get_after_set_object (b : Binding) (p : JSVal) :
  is_object p = true ->
  let '(b1, r1) := get (set b p) in
  r1 = Ok (Some (mkProxy (next_ref b) p)) /\ providerChanged b1 = false /\
  get b1 = (b1, r1).
Proof. intros H. unfold get, set. simpl. rewrite H. simpl. auto. Qed.

(** C4, at the initial state of a page where no wallet has installed
    [window.ethereum]: [new Proxy(undefined, handler)] throws, so every
    read of [window.ethereum] throws a [TypeError] and the flag stays set. *)
Theorem get_undefined_provider_throws :
  get (init JUndef) = (init JUndef, Exn TypeError) /\
  get (fst (get (init JUndef))) = (init JUndef, Exn TypeError) /\
  providerChanged (fst (get (init JUndef))) = true.
Proof. repeat split. Qed.

End BindingFacts.

Module StorageExtra.
Import Storage Dispatch Fixtures.

Lemma state_eqb_true a b : state_eqb a b = true <-> a = b.
Proof. destruct a, b; simpl; split; intros H; congruence. Qed.

Lemma filter_twice {A} (f : A -> bool) (l : list A) :
  filter f (filter f l) = filter f l.
Proof.
  induction l as [|a l IH]; simpl; [reflexivity|].
  destruct (f a) eqn:E; simpl; [rewrite E, IH|]; auto.
Qed.

(** [simulationNeedsAction] is false exactly on the two user decisions. *)
Theorem needsAction_false_iff (st : StoredSimulationState) :
  simulationNeedsAction st = false <-> st = Rejected \/ st = Confirmed.
Proof.
  destruct st; simpl; split; intros H;
    try (destruct H as [H|H]); try discriminate; auto.
Qed.

(** [clearOldSimulations] keeps, in order, exactly the entries whose state
    still needs action. *)
Theorem clearOld_keeps_needing_action (w : World) :
  read_simulations (clearOldSimulations w)
  = filter (fun x => simulationNeedsAction (state x)) (read_simulations w).
Proof.
  unfold clearOldSimulations. rewrite StorageFacts.read_write.
  apply filter_ext. intros x. destruct (state x); reflexivity.
Qed.

(** [clearOldSimulations] removes every [Confirmed] or [Rejected] entry and
    keeps every other one; running it twice is running it once. *)
Theorem clearOld_membership_idem (w : World) :
  (forall x, In x (read_simulations (clearOldSimulations w))
             <-> In x (read_simulations w) /\ state x <> Rejected /\ state x <> Confirmed) /\
  clearOldSimulations (clearOldSimulations w) = clearOldSimulations w.
Proof.
  split.
  - intros x. unfold clearOldSimulations. rewrite StorageFacts.read_write, filter_In.
    destruct (state x); simpl; intuition congruence.
  - unfold clearOldSimulations, write_simulations, read_simulations. simpl.
    rewrite filter_twice. reflexivity.
Qed.

(** [removeSimulation] leaves no entry with the id and keeps every other
    entry in order; for an id no entry has it changes nothing. *)
Theorem remove_spec (i : string) (w : World) :
  (forall x, In x (read_simulations (removeSimulation i w))
             <-> In x (read_simulations w) /\ id x <> i) /\
  ((forall x, In x (read_simulations w) -> id x <> i) ->
   read_simulations (removeSimulation i w) = read_simulations w).
Proof.
  unfold removeSimulation. rewrite StorageFacts.read_write. split.
  - intros x. rewrite filter_In. destruct (String.eqb_spec (id x) i); simpl; intuition discriminate.
  - intros Hn. apply forallb_filter_id, forallb_forall. intros x Hx.
    destruct (String.eqb_spec (id x) i) as [E|E]; [exfalso; exact (Hn x Hx E)|reflexivity].
Qed.

(** [addSimulation] then [removeSimulation] of an id that was not stored
    gives back the stored sequence. *)
Theorem add_remove_roundtrip (s : StoredSimulation) (w : World) :
  (forall x, In x (read_simulations w) -> id x <> id s) ->
  read_simulations (removeSimulation (id s) (addSimulation s w)) = read_simulations w.
Proof.
  intros Hn. unfold removeSimulation, addSimulation. rewrite !StorageFacts.read_write.
  rewrite filter_app. simpl. rewrite String.eqb_refl. simpl. rewrite app_nil_r.
  apply forallb_filter_id, forallb_forall. intros x Hx.
  destruct (String.eqb_spec (id x) (id s)) as [E|E]; [exfalso; exact (Hn x Hx E)|reflexivity].
Qed.

Theorem add_remove_roundtrip_witness :
  read_simulations (removeSimulation "a" (addSimulation entry_a w_b))
  = read_simulations w_b.
Proof.
  apply (add_remove_roundtrip entry_a w_b). simpl. intros x [<-|[]]. discriminate.
Defined.

(** [fetchSimulationAndUpdate] adds exactly one entry, in state
    [Simulating] at the end, whatever the server answers, even when it
    rejects; the later terminal write changes no length. *)
Theorem fetch_adds_one_entry (srv : Server) (args : RequestArgs) (w : World) :
  length (read_simulations (fst (fetchSimulationAndUpdate srv args w)))
  = S (length (read_simulations w)).
Proof.
  rewrite StorageFacts.fetch_as_write. cbv zeta.
  assert (Ha : length (read_simulations (addSimulation (initial_entry args) w))
               = S (length (read_simulations w))).
  { unfold addSimulation. rewrite StorageFacts.read_write, length_app. simpl. lia. }
  destruct (server_call srv args) as [r|e]; [|exact Ha].
  destruct (rtype r); [destruct (rsimulation r) as [sim|]; [destruct (sim_truthy (Some sim))|]| |];
    cbn [fst]; try exact Ha; rewrite StorageFacts.apply_write_map, length_map; exact Ha.
Qed.

(** A user's decision followed by [clearOldSimulations] drops every entry
    of that id and keeps the rest of the entries that still need action. *)
Theorem decide_then_clear (i : string) (d : StoredSimulationState) (w : World) :
  d = Confirmed \/ d = Rejected ->
  read_simulations (clearOldSimulations (updateSimulationState i d w))
  = filter (fun x => negb (String.eqb (id x) i) && simulationNeedsAction (state x))
           (read_simulations w).
Proof.
  intros Hd. rewrite clearOld_keeps_needing_action. unfold updateSimulationState.
  rewrite StorageFacts.read_write.
  induction (read_simulations w) as [|x l IH]; simpl; [reflexivity|].
  destruct (String.eqb (id x) i) eqn:E; simpl.
  - destruct Hd as [->| ->]; simpl; exact IH.
  - destruct (simulationNeedsAction (state x)); simpl; [f_equal|]; exact IH.
Qed.

Theorem decide_then_clear_witness :
  read_simulations (clearOldSimulations (updateSimulationState "a" Confirmed w_a)) = [].
Proof.
  rewrite (decide_then_clear "a" Confirmed w_a (or_introl eq_refl)). reflexivity.
Defined.

(** [setSettings] then [getSettings] gives the flag back, whatever was
    stored; the icon is the gray one exactly when the extension is
    disabled; the stored simulations are untouched. *)
Theorem settings_roundtrip_icon (args : Settings) (w : World) :
  getSettings (setSettings args w) = args /\
  w_icon (setSettings args w)
  = Some (if disable args then "icon-32-gray.png" else "icon-32.png") /\
  w_simulations (setSettings args w) = w_simulations w.
Proof. destruct args as [b]. repeat split. Qed.

End StorageExtra.

Module ProxyExtra.
Import Injected Fixtures.

(** Unfold one call of the wrapper and split on every value it inspects. *)
Ltac split_run :=
  repeat (cbn [bind lift ret throw forward queryChainId dispatch afterDecision
               fst snd app proxyCall wrapper];
          match goal with
          | |- context [match ?x with _ => _ end] =>
              lazymatch type of x with
              | prod _ _ => fail
              | M _ => fail
              | _ => destruct x eqn:?
              end
          end).

(** The shape of every call through the proxy: the original method is
    called at most once and with the caller's arguments, the manager is
    asked at most once and only after the chain id was queried, and the
    call is forwarded after a dispatch only as the last step. *)
Theorem trace_shape (disable : bool) (prop : string) (env : Env) (args : list JSVal) :
  exists r,
    let t := fst (proxyCall disable prop env args) in
    t = [] \/ t = [EvForward args] \/ t = [EvChainId] \/
    t = [EvChainId; EvDispatch r] \/ t = [EvChainId; EvDispatch r; EvForward args].
Proof.
  cbv zeta. unfold proxyCall, wrapper. split_run;
    solve [ exists (TxRequest JUndef JUndef); left; reflexivity
          | exists (TxRequest JUndef JUndef); right; left; reflexivity
          | exists (TxRequest JUndef JUndef); right; right; left; reflexivity
          | eexists; right; right; right; left; reflexivity
          | eexists; right; right; right; right; reflexivity ].
Qed.


(** Close a case of a split run from the hypotheses on the events. *)
Ltac close_run :=
  intros;
  repeat match goal with
  | H : In _ _ |- _ => cbn in H
  | H : _ \/ _ |- _ => destruct H
  | H : False |- _ => destruct H
  | H : EvDispatch _ = EvDispatch _ |- _ => injection H as H; subst
  | H : EvDispatch _ = _ |- _ => discriminate H
  | H : EvForward _ = _ |- _ => discriminate H
  | H : EvChainId = _ |- _ => discriminate H
  | H : _ = EvDispatch _ |- _ => discriminate H
  | H : _ = EvForward _ |- _ => discriminate H
  end;
  try congruence;
  try (split; [reflexivity|]);
  try (intros ? Hf; cbn in Hf; intuition discriminate);
  try reflexivity.



(** A call that queries the chain id and gets a rejection rejects with that
    error: it is neither sent to the manager nor forwarded (fail-closed). *)
Theorem chainId_failure_rejects (disable : bool) (prop : string) (env : Env)
    (args : list JSVal) (e : JSErr) :
  chainIdAnswer env = Exn e ->
  In EvChainId (fst (proxyCall disable prop env args)) ->
  proxyCall disable prop env args = ([EvChainId], Exn e).
Proof. unfold proxyCall, wrapper. split_run; close_run. Qed.

Theorem chainId_failure_rejects_witness :
  proxyCall false "request"
    (mkEnv (fun _ => Ok JUndef) (Exn TypeError) (fun _ => Ok Continue) (fun v => Ok v))
    (tx_call [JObj []])
  = ([EvChainId], Exn TypeError).
Proof.
  apply chainId_failure_rejects; [reflexivity | left; reflexivity].
Defined.

(** When the manager's request rejects, the call rejects with the same
    error and the original method is not called. *)
Theorem manager_failure_rejects (disable : bool) (prop : string) (env : Env)
    (args : list JSVal) (r : SimRequest) (e : JSErr) :
  managerRequest env r = Exn e ->
  In (EvDispatch r) (fst (proxyCall disable prop env args)) ->
  proxyCall disable prop env args = ([EvChainId; EvDispatch r], Exn e).
Proof. unfold proxyCall, wrapper. split_run; close_run. Qed.

Theorem manager_failure_rejects_witness :
  proxyCall false "request"
    (mkEnv (fun _ => Ok JUndef) (Ok (JStr "0x1")) (fun _ => Exn TypeError) (fun v => Ok v))
    (tx_call [JObj []])
  = ([EvChainId; EvDispatch (TxRequest (JStr "0x1") (JObj []))], Exn TypeError).
Proof.
  apply manager_failure_rejects; [reflexivity | right; left; reflexivity].
Defined.

(** A [Continue] or [Error] decision forwards the call after the dispatch,
    with the caller's arguments, and the call settles as the original
    method does (fail-open). *)
Theorem continue_or_error_forwards (disable : bool) (prop : string) (env : Env)
    (args : list JSVal) (r : SimRequest) :
  (managerRequest env r = Ok Continue \/ managerRequest env r = Ok DError) ->
  In (EvDispatch r) (fst (proxyCall disable prop env args)) ->
  proxyCall disable prop env args
  = ([EvChainId; EvDispatch r; EvForward args], originalCall env args).
Proof. unfold proxyCall, wrapper. split_run; close_run. Qed.

Theorem continue_or_error_forwards_witness :
  proxyCall false "request"
    (mkEnv (fun _ => Ok (JStr "0xhash")) (Ok (JStr "0x1")) (fun _ => Ok DError)
           (fun v => Ok v))
    (tx_call [JObj []])
  = ([EvChainId; EvDispatch (TxRequest (JStr "0x1") (JObj [])); EvForward (tx_call [JObj []])],
     Ok (JStr "0xhash")).
Proof.
  apply continue_or_error_forwards; [right; reflexivity | right; left; reflexivity].
Defined.

(** A [Reject] decision rejects with the EIP-1193 user-rejected error whose
    message depends on the kind of request, and nothing is forwarded. *)
Theorem reject_message_by_kind (disable : bool) (prop : string) (env : Env)
    (args : list JSVal) (r : SimRequest) :
  managerRequest env r = Ok Reject ->
  In (EvDispatch r) (fst (proxyCall disable prop env args)) ->
  proxyCall disable prop env args
  = ([EvChainId; EvDispatch r],
     Exn (ProviderError 4001
            match r with
            | TxRequest _ _ => "PocketUniverse Tx Signature: User denied transaction signature."
            | SigRequest _ _ _ _ =>
                "PocketUniverse Message Signature: User denied message signature."
            end)).
Proof. unfold proxyCall, wrapper. split_run; close_run. Qed.

Theorem reject_message_by_kind_witness :
  proxyCall false "send" env_reject
    (sig_call [JStr "0xabc"; JObj [("domain", JStr "d"); ("message", JStr "m");
                                   ("primaryType", JStr "Mail")]])
  = ([EvChainId; EvDispatch (SigRequest (JStr "0x1") (JStr "d") (JStr "m") (JStr "Mail"))],
     Exn (ProviderError 4001
            "PocketUniverse Message Signature: User denied message signature.")).
Proof.
  apply (reject_message_by_kind false "send" env_reject _
           (SigRequest (JStr "0x1") (JStr "d") (JStr "m") (JStr "Mail")));
    [reflexivity | right; left; reflexivity].
Defined.

(** A typed-data call whose second parameter does not parse rejects with
    the parse error before the chain id is queried: nothing is sent and
    nothing is forwarded. *)
Theorem typed_data_parse_failure (disable : bool) (prop : string) (env : Env)
    (args : list JSVal) (ps p1 : JSVal) (e : JSErr) :
  handlerGet disable prop = Wrapped ->
  (get_prop (nth 0 args JUndef) "method" = Ok (JStr "eth_signTypedData_v3") \/
   get_prop (nth 0 args JUndef) "method" = Ok (JStr "eth_signTypedData_v4")) ->
  get_prop (nth 0 args JUndef) "params" = Ok ps ->
  get_prop ps "length" = Ok (JNum 2) ->
  get_index ps 1 = Ok p1 ->
  jsonParse env p1 = Exn e ->
  proxyCall disable prop env args = ([], Exn e).
Proof.
  intros Hw Hm Hp Hl H1 He. unfold proxyCall. rewrite Hw. unfold wrapper.
  destruct Hm as [Hm|Hm]; rewrite Hm; cbn; rewrite Hp; cbn; rewrite Hl; cbn;
    rewrite H1; cbn; rewrite He; reflexivity.
Qed.

Theorem typed_data_parse_failure_witness :
  proxyCall false "request"
    (mkEnv (fun _ => Ok JUndef) (Ok (JStr "0x1")) (fun _ => Ok Continue)
           (fun _ => Exn (PlainError "Unexpected token")))
    (sig_call [JStr "0xabc"; JStr "not json"])
  = ([], Exn (PlainError "Unexpected token")).
Proof.
  apply (typed_data_parse_failure false "request" _ _ (JArr [JStr "0xabc"; JStr "not json"])
           (JStr "not json")); try reflexivity. right; reflexivity.
Defined.

(** The request sent for a typed-data call carries the chain id and the
    [domain], [message] and [primaryType] of the parsed second parameter. *)
Theorem typed_data_request_built (disable : bool) (prop : string) (env : Env)
    (args : list JSVal) (ps p1 parsed cid d m pt : JSVal) :
  handlerGet disable prop = Wrapped ->
  (get_prop (nth 0 args JUndef) "method" = Ok (JStr "eth_signTypedData_v3") \/
   get_prop (nth 0 args JUndef) "method" = Ok (JStr "eth_signTypedData_v4")) ->
  get_prop (nth 0 args JUndef) "params" = Ok ps ->
  get_prop ps "length" = Ok (JNum 2) ->
  get_index ps 1 = Ok p1 ->
  jsonParse env p1 = Ok parsed ->
  chainIdAnswer env = Ok cid ->
  get_prop parsed "domain" = Ok d ->
  get_prop parsed "message" = Ok m ->
  get_prop parsed "primaryType" = Ok pt ->
  exists rest,
    fst (proxyCall disable prop env args)
    = EvChainId :: EvDispatch (SigRequest cid d m pt) :: rest.
Proof.
  intros Hw Hm Hp Hl H1 Hj Hc Hd Hmsg Hpt. unfold proxyCall. rewrite Hw. unfold wrapper.
  destruct Hm as [Hm|Hm]; rewrite Hm; cbn; rewrite Hp; cbn; rewrite Hl; cbn;
    rewrite H1; cbn; rewrite Hj; cbn; unfold queryChainId; rewrite Hc; cbn;
    rewrite Hd; cbn; rewrite Hmsg; cbn; rewrite Hpt; cbn;
    destruct (managerRequest env (SigRequest cid d m pt)) as [[| |]|]; cbn; eexists; reflexivity.
Qed.

Theorem typed_data_request_built_witness :
  exists rest,
    fst (proxyCall false "send" env_reject
           (sig_call [JStr "0xabc"; JObj [("domain", JStr "d"); ("message", JStr "m");
                                          ("primaryType", JStr "Mail")]]))
    = EvChainId :: EvDispatch (SigRequest (JStr "0x1") (JStr "d") (JStr "m") (JStr "Mail"))
      :: rest.
Proof.
  apply (typed_data_request_built false "send" env_reject _
           (JArr [JStr "0xabc"; JObj [("domain", JStr "d"); ("message", JStr "m");
                                      ("primaryType", JStr "Mail")]])
           (JObj [("domain", JStr "d"); ("message", JStr "m"); ("primaryType", JStr "Mail")])
           (JObj [("domain", JStr "d"); ("message", JStr "m"); ("primaryType", JStr "Mail")])
           (JStr "0x1")); try reflexivity. right; reflexivity.
Defined.
End ProxyExtra.

Module BindingExtra.
Import Binding.

(** Invariant of the reachable states: once the flag is cleared, the cache
    holds a proxy of the current provider, allocated before [next_ref]. *)
Lemma reachable_cache_inv (b : Binding) :
  reachable b ->
  providerChanged b = false ->
  exists p, cachedProxy b = Some p /\ proxy_target p = currentProvider b /\
            proxy_ref p < next_ref b.
Proof.
  induction 1 as [v|b v _ IH|b Hb IH]; simpl; intros Hc.
  - discriminate Hc.
  - discriminate Hc.
  - unfold get in *. destruct (providerChanged b) eqn:E.
    + destruct (is_object (currentProvider b)); simpl in *; [|congruence].
      eexists; repeat split; simpl; lia.
    + simpl in *. exact (IH eq_refl).
Qed.

(** Every read of [window.ethereum] that does not throw returns a proxy
    whose target is the current provider: the cache is never stale and
    never [undefined]. *)
Theorem get_returns_current (b : Binding) (o : option ProxyRef) :
  reachable b ->
  snd (get b) = Ok o ->
  exists p, o = Some p /\ proxy_target p = currentProvider b.
Proof.
  intros Hr Hg. unfold get in Hg. destruct (providerChanged b) eqn:E.
  - destruct (is_object (currentProvider b)); simpl in Hg; [|discriminate].
    injection Hg as <-. eexists; split; reflexivity.
  - simpl in Hg. injection Hg as <-.
    destruct (reachable_cache_inv b Hr E) as [p [Hp [Ht _]]]. eauto.
Qed.

Theorem get_returns_current_witness :
  exists p, Some (mkProxy 0 (JObj [])) = Some p /\
            proxy_target p = currentProvider (fst (get (init (JObj [])))).
Proof.
  apply (get_returns_current (fst (get (init (JObj []))))).
  - apply reach_get, reach_init.
  - reflexivity.
Defined.


Theorem get_after_set_object_witness :
  snd (get (set (init JUndef) (JObj []))) = Ok (Some (mkProxy 0 (JObj []))) /\
  providerChanged (fst (get (set (init JUndef) (JObj [])))) = false /\
  get (fst (get (set (init JUndef) (JObj []))))
  = (fst (get (set (init JUndef) (JObj []))), snd (get (set (init JUndef) (JObj [])))).
Proof. exact (BindingFacts.get_after_set_object (init JUndef) (JObj []) eq_refl). Defined.

(** Every proxy a run has built or returned was allocated below the
    counter the run ends with. *)
Lemma run_refs_below (ops : list Op) (b : Binding) :
  (forall q, cachedProxy b = Some q -> proxy_ref q < next_ref b) ->
  next_ref b <= next_ref (fst (run b ops)) /\
  (forall q, cachedProxy (fst (run b ops)) = Some q -> proxy_ref q < next_ref (fst (run b ops))) /\
  (forall q, In q (snd (run b ops)) -> proxy_ref q < next_ref (fst (run b ops))).
Proof.
  revert b. induction ops as [|op ops IH]; intros b Hb.
  - simpl. split; [lia|]. split; [exact Hb|]. intros q [].
  - destruct op as [|v]; simpl.
    + unfold get. destruct (providerChanged b) eqn:E.
      * destruct (is_object (currentProvider b)) eqn:Eo.
        -- set (b1 := mkBinding (currentProvider b) (Some (mkProxy (next_ref b) (currentProvider b)))
                                false (S (next_ref b))).
           assert (Hb1 : forall q, cachedProxy b1 = Some q -> proxy_ref q < next_ref b1).
           { intros q Hq. injection Hq as <-. simpl. lia. }
           destruct (IH b1 Hb1) as [H1 [H2 H3]].
           destruct (run b1 ops) as [b2 seen] eqn:Er. simpl in *.
           split; [lia|]. split; [exact H2|].
           intros q [<-|Hq]; [simpl; lia | exact (H3 q Hq)].
        -- destruct (IH b Hb) as [H1 [H2 H3]].
           destruct (run b ops) as [b2 seen]. simpl in *. auto.
      * destruct (IH b Hb) as [H1 [H2 H3]].
        destruct (run b ops) as [b2 seen] eqn:Er. simpl in *.
        destruct (cachedProxy b) as [q0|] eqn:Ec.
        -- split; [exact H1|]. split; [exact H2|].
           intros q [<-|Hq]; [specialize (Hb q0 eq_refl); lia | exact (H3 q Hq)].
        -- auto.
    + apply (IH (set b v)). exact Hb.
Qed.

(** After any history of reads and writes from the script's start, writing
    an object provider [p] (even the same one again) and reading gives a
    proxy of [p] whose reference differs from that of every proxy an
    earlier read returned. *)
Theorem later_read_fresh_proxy (v : JSVal) (ops : list Op) (p : JSVal) :
  is_object p = true ->
  exists q, snd (get (set (fst (run (init v) ops)) p)) = Ok (Some q) /\
            proxy_target q = p /\
            forall q', In q' (snd (run (init v) ops)) -> proxy_ref q' <> proxy_ref q.
Proof.
  intros Ho.
  destruct (run_refs_below ops (init v)) as [_ [_ H3]]; [intros q Hq; discriminate Hq|].
  exists (mkProxy (next_ref (fst (run (init v) ops))) p).
  unfold get, set. simpl. rewrite Ho. split; [reflexivity|]. split; [reflexivity|].
  intros q' Hq'. specialize (H3 q' Hq'). simpl. lia.
Qed.

Theorem later_read_fresh_proxy_witness :
  snd (run (init (JObj [])) [OGet; OSet (JObj [])]) = [mkProxy 0 (JObj [])] /\
  exists q, snd (get (set (fst (run (init (JObj [])) [OGet; OSet (JObj [])])) (JObj [])))
            = Ok (Some q) /\ proxy_target q = JObj [] /\
            forall q', In q' (snd (run (init (JObj [])) [OGet; OSet (JObj [])])) ->
                       proxy_ref q' <> proxy_ref q.
Proof.
  split; [reflexivity|].
  apply (later_read_fresh_proxy (JObj []) [OGet; OSet (JObj [])] (JObj [])). reflexivity.
Defined.

End BindingExtra.
